(** * The mood detector of app.py, embedded and verified

    The development follows [app.py]: the scorer [MoodDetector.analyze_mood]
    and the route [analyze_mood] that wraps it.

    Numbers.  Python computes with binary floating point; here every number
    is a rational ([Q]), so the arithmetic is exact.  [NaN], the infinities,
    overflow and the rounding error of a float operation are outside this
    model.
    Integers ([stress_level]) are [Z].  Equality of rationals is [==]
    ([Qeq]); where two results come from the same computation they are
    equal with [=] as well. *)

From Stdlib Require Import QArith ZArith Qround Qabs Lqa Lia Bool String List.
Import ListNotations.
Set Warnings "-register-all".
Local Open Scope string_scope.
Local Open Scope Q_scope.

(** ** Python primitives used by the scorer *)

(** [x < y] and [x > y] on numbers, as booleans. *)
Definition py_lt (x y : Q) : bool := negb (Qle_bool y x).
Definition py_gt (x y : Q) : bool := py_lt y x.

(** [min(a, b)]: the later argument wins only when it is strictly smaller. *)
Definition py_min (a b : Q) : Q := if py_lt b a then b else a.

(** [max(a, b)]: the later argument wins only when it is strictly larger. *)
Definition py_max (a b : Q) : Q := if py_gt b a then b else a.

(** [int(x)]: the integer part of [x], truncated toward zero. *)
Definition py_int (x : Q) : Z := Z.quot (Qnum x) (Zpos (Qden x)).

(** The nearest integer, a tie going to the even neighbour. *)
Definition round_half_even (x : Q) : Z :=
  let n := Qfloor x in
  match Qcompare (x - inject_Z n) (1 # 2) with
  | Lt => n
  | Gt => (n + 1)%Z
  | Eq => if Z.even n then n else (n + 1)%Z
  end.

(** [round(x, ndigits)]. *)
Definition py_round (x : Q) (ndigits : nat) : Q :=
  let scale := inject_Z (10 ^ Z.of_nat ndigits) in
  inject_Z (round_half_even (x * scale)) / scale.

(** ** Parsed JSON values, as [request.json] hands them over *)

Inductive json : Type :=
| JNull
| JBool (b : bool)
| JInt (z : Z)
| JFloat (q : Q)
| JStr (s : string)
| JList (l : list json)
| JDict (items : list (string * json)).

(** [type(v).__name__] *)
Definition type_name (v : json) : string :=
  match v with
  | JNull => "NoneType"
  | JBool _ => "bool"
  | JInt _ => "int"
  | JFloat _ => "float"
  | JStr _ => "str"
  | JList _ => "list"
  | JDict _ => "dict"
  end.

(** The exceptions the scorer can raise, with their messages ([str(e)]). *)
Inductive exn : Type :=
| AttributeError (msg : string)
| TypeError (msg : string).

Definition str (e : exn) : string :=
  match e with
  | AttributeError msg => msg
  | TypeError msg => msg
  end.

(** A computation that returns a value or raises. *)
Inductive res (A : Type) : Type :=
| Ok (a : A)
| Raise (e : exn).
Arguments Ok {A} a.
Arguments Raise {A} e.

Definition bind {A B : Type} (c : res A) (k : A -> res B) : res B :=
  match c with
  | Ok a => k a
  | Raise e => Raise e
  end.

Notation "x <- c ;; k" := (bind c (fun x => k))
  (at level 61, c at next level, right associativity).

(** The items of a dict are kept in a list; a key is bound to the value of
    its first entry. *)
Fixpoint lookup (k : string) (items : list (string * json)) : option json :=
  match items with
  | [] => None
  | (k', v) :: rest => if String.eqb k k' then Some v else lookup k rest
  end.

(** [o.get(k, d)]: only a dict has the method. *)
Definition get (o : json) (k : string) (d : json) : res json :=
  match o with
  | JDict items =>
      Ok (match lookup k items with Some v => v | None => d end)
  | _ =>
      Raise (AttributeError
               ("'" ++ type_name o ++ "' object has no attribute 'get'"))
  end.

(** The value of [v] as a number: [bool] is a subtype of [int] in Python. *)
Definition number (v : json) : option Q :=
  match v with
  | JBool b => Some (if b then 1 else 0)
  | JInt z => Some (inject_Z z)
  | JFloat q => Some q
  | _ => None
  end.

(** [v op c] for a comparison [op] against a constant of type [cty]. *)
Definition compared (op : string) (v : json) (cty : string) : res Q :=
  match number v with
  | Some q => Ok q
  | None =>
      Raise (TypeError
               ("'" ++ op ++ "' not supported between instances of '"
                    ++ type_name v ++ "' and '" ++ cty ++ "'"))
  end.

(** [v / c] for an [int] constant [c]: the dividend, when it is a number. *)
Definition dividend (v : json) : res Q :=
  match number v with
  | Some q => Ok q
  | None =>
      Raise (TypeError
               ("unsupported operand type(s) for /: '"
                    ++ type_name v ++ "' and 'int'"))
  end.

(** ** The result of the scorer *)

Inductive mood_label : Type := happy | stressed | neutral.

Definition mood_label_eqb (a b : mood_label) : bool :=
  match a, b with
  | happy, happy | stressed, stressed | neutral, neutral => true
  | _, _ => false
  end.

Record probabilities_t : Type := mkProbabilities {
  p_happy : Q;
  p_stressed : Q;
  p_neutral : Q
}.

Record result : Type := mkResult {
  mood : mood_label;
  stressLevel : Z;
  confidence : Q;
  probabilities : probabilities_t
}.

(** ** class MoodDetector *)

Module MoodDetector.

(** [self.weights]: a dict with four fixed keys, read by key only. *)
Record weights_t : Type := mkWeights {
  facial_smile : Q;
  facial_stress : Q;
  typing_speed : Q;
  typing_accuracy : Q
}.

Definition weights : weights_t :=
  {| facial_smile := 0.45;
     facial_stress := 0.30;
     typing_speed := 0.15;
     typing_accuracy := 0.10 |}.

(** The six features [analyze_mood] extracts from the request, defaults
    filled in. *)
Record features : Type := mkFeatures {
  avg_smile : Q;
  avg_stress_indicator : Q;
  facial_confidence : Q;
  wpm : Q;
  accuracy : Q;
  voice_level : Q
}.

Section Scoring.

Variable f : features.

(** Feature normalization *)
Definition smile_score : Q := py_max 0 (py_min 1 (avg_smile f)).
Definition stress_score : Q := py_max 0 (py_min 1 (avg_stress_indicator f)).
Definition typing_score : Q := py_max 0 (py_min 1 (wpm f / 80)).
Definition accuracy_score : Q := py_max 0 (py_min 1 (accuracy f / 100)).

(** The weighted combinations: the values of [happy_prob] and
    [stressed_prob] before [/= total]. *)
Definition happy_raw : Q :=
  facial_smile weights * smile_score * 2 +
  typing_speed weights * typing_score * 0.5 +
  typing_accuracy weights * accuracy_score * 0.3.

Definition stressed_raw : Q :=
  facial_stress weights * stress_score * 2 +
  typing_speed weights * (1 - typing_score) * 0.5 +
  typing_accuracy weights * (1 - accuracy_score) * 0.3.

(** Normalize probabilities.  [x / 0] is [0] in [Q] where Python raises
    [ZeroDivisionError]; [total_pos] below shows the divisor is never
    zero, so the two agree. *)
Definition total : Q := happy_raw + stressed_raw + 0.2.
Definition happy_prob : Q := happy_raw / total.
Definition stressed_prob : Q := stressed_raw / total.
Definition neutral_prob : Q := 0.2 / total.

(** Determine mood: the values of [mood] and [confidence] after the
    [if]/[elif] chain. *)
Definition determined : mood_label * Q :=
  if py_gt happy_prob 0.5 && py_gt smile_score 0.6 then
    (happy, happy_prob)
  else if py_gt stressed_prob 0.5 && py_gt stress_score 0.6 then
    (stressed, stressed_prob)
  else if py_gt happy_prob stressed_prob && py_gt smile_score 0.5 then
    (happy, happy_prob)
  else
    (neutral, neutral_prob).

(** Calculate stress level (0-100) *)
Definition stress_level_int : Z :=
  py_int (stress_score * 40 +
          (1 - typing_score) * 20 +
          (1 - accuracy_score) * 15 +
          voice_level f / 5 -
          smile_score * 25).

Definition stress_level : Z := Z.max 0 (Z.min 100 stress_level_int).

(** Adjust based on facial confidence: the values of [mood] and
    [stress_level] after the nested [if]. *)
Definition adjusted : mood_label * Z :=
  if py_gt (facial_confidence f) 0.6 then
    if py_gt smile_score 0.7 then
      (happy, Z.max 0 (stress_level - 20))
    else if py_gt stress_score 0.7 then
      (stressed, Z.min 100 (stress_level + 15))
    else
      (fst determined, stress_level)
  else
    (fst determined, stress_level).

(** The returned dict. *)
Definition score : result :=
  {| mood := fst adjusted;
     stressLevel := snd adjusted;
     confidence := snd determined;
     probabilities :=
       {| p_happy := py_round happy_prob 2;
          p_stressed := py_round stressed_prob 2;
          p_neutral := py_round neutral_prob 2 |} |}.

End Scoring.

(** [analyze_mood(self, data)].  The [get] calls run first; each feature is
    then an operand of the first operation that uses it, which raises
    [TypeError] unless it is a number: [min(1, _)] compares [_ < 1],
    [wpm / 80], [accuracy / 100], [voice_level / 5] divide, and
    [facial_confidence > 0.6] compares last. *)
Definition analyze_mood (data : json) : res result :=
  facial_data <- get data "facial" (JDict []) ;;
  typing_data <- get data "typing" (JDict []) ;;
  voice_data <- get data "voice" (JDict []) ;;
  avg_smile <- get facial_data "avgSmile" (JFloat 0.5) ;;
  avg_stress_indicator <- get facial_data "avgStressIndicator" (JFloat 0.5) ;;
  facial_confidence <- get facial_data "facialConfidence" (JInt 0) ;;
  wpm <- get typing_data "wpm" (JInt 0) ;;
  accuracy <- get typing_data "accuracy" (JInt 0) ;;
  voice_level <- get voice_data "avgVoiceLevel" (JInt 50) ;;
  avg_smile <- compared "<" avg_smile "int" ;;
  avg_stress_indicator <- compared "<" avg_stress_indicator "int" ;;
  wpm <- dividend wpm ;;
  accuracy <- dividend accuracy ;;
  voice_level <- dividend voice_level ;;
  facial_confidence <- compared ">" facial_confidence "float" ;;
  Ok (score (mkFeatures avg_smile avg_stress_indicator facial_confidence
                        wpm accuracy voice_level)).

End MoodDetector.

(** ** The route POST /api/analyze *)

Module App.

(** The JSON body of a response. *)
Inductive body : Type :=
| ResultBody (success : bool) (result : result)
| ErrorBody (success : bool) (error : string).

Record response : Type := mkResponse {
  status : Z;
  payload : body
}.

(** [analyze_mood()]: [except Exception] catches whatever the scorer raises. *)
Definition analyze_mood (data : json) : response :=
  match MoodDetector.analyze_mood data with
  | Ok result => mkResponse 200 (ResultBody true result)
  | Raise e => mkResponse 500 (ErrorBody false (str e))
  end.

End App.

Import MoodDetector.

(** ** Definitions used to state the properties *)

(** The normalized probability of a mood label. *)
Definition prob_of (f : features) (m : mood_label) : Q :=
  match m with
  | happy => happy_prob f
  | stressed => stressed_prob f
  | neutral => neutral_prob f
  end.

(** [f] with another [avgSmile], every other feature kept. *)
Definition with_avg_smile (f : features) (s : Q) : features :=
  mkFeatures s (avg_stress_indicator f) (facial_confidence f)
             (wpm f) (accuracy f) (voice_level f).

(** [f] with another [avgVoiceLevel], every other feature kept. *)
Definition with_voice_level (f : features) (v : Q) : features :=
  mkFeatures (avg_smile f) (avg_stress_indicator f) (facial_confidence f)
             (wpm f) (accuracy f) v.

(** The features of the request [{}]: every documented default. *)
Definition default_features : features := mkFeatures 0.5 0.5 0 0 0 50.

(** *** The decision list of the specification (step 5)

    An ordered list of guarded outcomes; the first rule whose guard holds
    wins, and the default is taken when none does. *)
Fixpoint first_match {A : Type} (rules : list (bool * A)) (default : A) : A :=
  match rules with
  | [] => default
  | (guard, outcome) :: rest =>
      if guard then outcome else first_match rest default
  end.

Definition spec_rule1 (f : features) : bool * (mood_label * Q) :=
  (py_gt (happy_prob f) 0.5 && py_gt (smile_score f) 0.6,
   (happy, happy_prob f)).
Definition spec_rule2 (f : features) : bool * (mood_label * Q) :=
  (py_gt (stressed_prob f) 0.5 && py_gt (stress_score f) 0.6,
   (stressed, stressed_prob f)).
Definition spec_rule3 (f : features) : bool * (mood_label * Q) :=
  (py_gt (happy_prob f) (stressed_prob f) && py_gt (smile_score f) 0.5,
   (happy, happy_prob f)).

Definition spec_decision (f : features) : mood_label * Q :=
  first_match [spec_rule1 f; spec_rule2 f; spec_rule3 f]
              (neutral, neutral_prob f).

(** The guards of the three rules, as propositions. *)
Definition guard1 (f : features) : Prop :=
  0.5 < happy_prob f /\ 0.6 < smile_score f.
Definition guard2 (f : features) : Prop :=
  0.5 < stressed_prob f /\ 0.6 < stress_score f.
Definition guard3 (f : features) : Prop :=
  stressed_prob f < happy_prob f /\ 0.5 < smile_score f.

(** The same list with its first two rules in the other order. *)
Definition spec_decision_swapped (f : features) : mood_label * Q :=
  first_match [spec_rule2 f; spec_rule1 f; spec_rule3 f]
              (neutral, neutral_prob f).

(** *** The stress level of the specification (step 6) *)

(** Truncation toward zero: round down from zero on, round up below. *)
Definition trunc_toward_zero (x : Q) : Z :=
  if Qle_bool 0 x then Qfloor x else Qceiling x.

(** Clamp an integer to the closed interval from [lo] to [hi]. *)
Definition clamp (lo hi x : Z) : Z :=
  if (x <? lo)%Z then lo else if (hi <? x)%Z then hi else x.

(** The real value whose integer part is the stress level. *)
Definition stress_real (f : features) : Q :=
  stress_score f * 40 + (1 - typing_score f) * 20 +
  (1 - accuracy_score f) * 15 + voice_level f / 5 - smile_score f * 25.

Definition spec_stress_level (f : features) : Z :=
  clamp 0 100 (trunc_toward_zero (stress_real f)).

(** What rounding to the nearest integer would give instead. *)
Definition rounded_stress_level (f : features) : Z :=
  clamp 0 100 (round_half_even (stress_real f)).

(** [isinstance(v, dict)] *)
Definition is_dict (v : json) : bool :=
  match v with
  | JDict _ => true
  | _ => false
  end.

(** *** Requests used as examples *)

(** Confident face, broad smile: the override lowers the stress level. *)
Definition smiling_request : json :=
  JDict [("facial", JDict [("avgSmile", JFloat 0.9);
                           ("avgStressIndicator", JFloat 0.1);
                           ("facialConfidence", JFloat 0.8)]);
         ("typing", JDict [("wpm", JInt 60); ("accuracy", JInt 95)]);
         ("voice", JDict [("avgVoiceLevel", JInt 40)])].
Definition smiling : features := mkFeatures 0.9 0.1 0.8 60 95 40.

(** Confident face, no broad smile, high stress indicator: the decision
    list says happy, the override says stressed. *)
Definition tense_request : json :=
  JDict [("facial", JDict [("avgSmile", JFloat 0.7);
                           ("avgStressIndicator", JFloat 0.8);
                           ("facialConfidence", JFloat 0.7)])].
Definition tense : features := mkFeatures 0.7 0.8 0.7 0 0 50.

(** Confident face, broad smile, but the stressed weight is the larger
    one: the decision list says neutral, the override says happy. *)
Definition mixed_request : json :=
  JDict [("facial", JDict [("avgSmile", JFloat 0.75);
                           ("avgStressIndicator", JInt 1);
                           ("facialConfidence", JFloat 0.8)])].
Definition mixed : features := mkFeatures 0.75 1 0.8 0 0 50.

(** A face detected with low confidence: no override. *)
Definition unsure : features := mkFeatures 0.9 0.9 0.5 0 0 50.

(** *** Further definitions used to state properties of the scorer *)




(** The entry of a request object under [k], [{}] standing in for a missing
    one: the value of [data.get(k, {})]. *)
Definition group (items : list (string * json)) (k : string) : json :=
  match lookup k items with
  | Some v => v
  | None => JDict []
  end.

(** The value of [g.get(k, d)] when [g] is a dict. *)
Definition field (g : json) (k : string) (d : json) : json :=
  match g with
  | JDict fields =>
      match lookup k fields with
      | Some v => v
      | None => d
      end
  | _ => d
  end.

Definition is_number (v : json) : bool :=
  match number v with
  | Some _ => true
  | None => false
  end.

Definition number_or (v : json) (q : Q) : Q :=
  match number v with
  | Some x => x
  | None => q
  end.

(** The request is an object and each of its three entries, when there, is
    an object. *)
Definition groups_ok (data : json) : bool :=
  match data with
  | JDict items =>
      is_dict (group items "facial")
      && is_dict (group items "typing")
      && is_dict (group items "voice")
  | _ => false
  end.

(** Each of the six fields, when there, is a number ([true] and [false]
    count as 1 and 0). *)
Definition fields_ok (data : json) : bool :=
  match data with
  | JDict items =>
      is_number (field (group items "facial") "avgSmile" (JFloat 0.5))
      && is_number (field (group items "facial") "avgStressIndicator"
                          (JFloat 0.5))
      && is_number (field (group items "facial") "facialConfidence" (JInt 0))
      && is_number (field (group items "typing") "wpm" (JInt 0))
      && is_number (field (group items "typing") "accuracy" (JInt 0))
      && is_number (field (group items "voice") "avgVoiceLevel" (JInt 50))
  | _ => false
  end.

Definition well_typed (data : json) : bool := groups_ok data && fields_ok data.

(** The six numbers a well-typed request carries, defaults filled in. *)
Definition features_of (data : json) : features :=
  match data with
  | JDict items =>
      mkFeatures
        (number_or (field (group items "facial") "avgSmile" (JFloat 0.5)) 0.5)
        (number_or (field (group items "facial") "avgStressIndicator"
                          (JFloat 0.5)) 0.5)
        (number_or (field (group items "facial") "facialConfidence" (JInt 0))
                   0)
        (number_or (field (group items "typing") "wpm" (JInt 0)) 0)
        (number_or (field (group items "typing") "accuracy" (JInt 0)) 0)
        (number_or (field (group items "voice") "avgVoiceLevel" (JInt 50)) 50)
  | _ => default_features
  end.

(** Whether an exception is an [AttributeError]. *)
Definition is_attribute_error (e : exn) : bool :=
  match e with
  | AttributeError _ => true
  | TypeError _ => false
  end.

(** [g] is at least as tense as [f]: the same facial confidence, no more
    smile, typing speed or accuracy, no less stress indicator or voice. *)
Definition no_calmer (f g : features) : Prop :=
  facial_confidence g = facial_confidence f
  /\ avg_smile g <= avg_smile f
  /\ avg_stress_indicator f <= avg_stress_indicator g
  /\ wpm g <= wpm f
  /\ accuracy g <= accuracy f
  /\ voice_level f <= voice_level g.

(** [p] is a whole number of hundredths from 0 to 1, at most half a
    hundredth away from [x]. *)
Definition rounded_to_hundredths (x p : Q) : Prop :=
  (exists n : Z, (0 <= n <= 100)%Z /\ p == inject_Z n / 100)
  /\ x - 0.005 <= p <= x + 0.005.

(** A request whose rounded probabilities are 0.05, 0.30 and 0.66. *)
Definition blank_face : features := mkFeatures 0 0 0 0 50 50.

(** The request [{}] written out at length: a default given in full, an
    empty entry, and keys the scorer does not know. *)
Definition annotated_items : list (string * json) :=
  [("session", JInt 7);
   ("facial", JDict [("avgSmile", JFloat 0.5); ("note", JStr "webcam")]);
   ("typing", JDict [])].

(** A request whose [typing] entry is a list and whose smile is a string. *)
Definition ill_typed_request : json :=
  JDict [("facial", JDict [("avgSmile", JStr "wide")]);
         ("typing", JList [])].

(** ** Python comparisons, [min] and [max] *)

Lemma py_lt_spec (x y : Q) : py_lt x y = true <-> x < y.
Proof.
  unfold py_lt. rewrite negb_true_iff, <- not_true_iff_false, Qle_bool_iff.
  split; [apply Qnot_le_lt | apply Qlt_not_le].
Qed.

Lemma py_gt_spec (x y : Q) : py_gt x y = true <-> y < x.
Proof. apply py_lt_spec. Qed.

Lemma py_gt_false (x y : Q) : py_gt x y = false <-> x <= y.
Proof.
  rewrite <- not_true_iff_false, py_gt_spec.
  split; [apply Qnot_lt_le | apply Qle_not_lt].
Qed.

Lemma py_gt_reflect (x y : Q) : reflect (y < x) (py_gt x y).
Proof. apply iff_reflect. symmetry. apply py_gt_spec. Qed.

(** [max(0, min(1, x))] lies between 0 and 1 ... *)
Lemma clamp01_bounds (x : Q) : 0 <= py_max 0 (py_min 1 x) <= 1.
Proof.
  unfold py_max, py_min.
  destruct (py_lt x 1) eqn:Hlt.
  - apply py_lt_spec in Hlt.
    destruct (py_gt_reflect x 0); lra.
  - destruct (py_gt_reflect 1 0); lra.
Qed.

(** ... is [x] itself on that interval ... *)
Lemma clamp01_id (x : Q) : 0 <= x <= 1 -> py_max 0 (py_min 1 x) == x.
Proof.
  intros Hx. unfold py_max, py_min.
  destruct (py_lt x 1) eqn:Hlt.
  - destruct (py_gt_reflect x 0); lra.
  - apply not_true_iff_false in Hlt. rewrite py_lt_spec in Hlt.
    destruct (py_gt_reflect 1 0); lra.
Qed.

(** ... and never decreases when [x] grows. *)
Lemma clamp01_mono (x y : Q) :
  x <= y -> py_max 0 (py_min 1 x) <= py_max 0 (py_min 1 y).
Proof.
  intros Hxy. unfold py_max, py_min.
  destruct (py_lt x 1) eqn:Hx; destruct (py_lt y 1) eqn:Hy;
    try (apply py_lt_spec in Hx); try (apply py_lt_spec in Hy);
    try (apply not_true_iff_false in Hx; rewrite py_lt_spec in Hx);
    try (apply not_true_iff_false in Hy; rewrite py_lt_spec in Hy);
    repeat match goal with
           | |- context [py_gt ?a ?b] => destruct (py_gt_reflect a b)
           end; lra.
Qed.

(** ** The normalized scores and the raw class weights *)

Section Bounds.

Variable f : features.

Lemma smile_score_bounds : 0 <= smile_score f <= 1.
Proof. apply clamp01_bounds. Qed.

Lemma stress_score_bounds : 0 <= stress_score f <= 1.
Proof. apply clamp01_bounds. Qed.

Lemma typing_score_bounds : 0 <= typing_score f <= 1.
Proof. apply clamp01_bounds. Qed.

Lemma accuracy_score_bounds : 0 <= accuracy_score f <= 1.
Proof. apply clamp01_bounds. Qed.

Lemma happy_raw_bounds : 0 <= happy_raw f <= 1005 # 1000.
Proof.
  pose proof smile_score_bounds. pose proof typing_score_bounds.
  pose proof accuracy_score_bounds.
  unfold happy_raw, weights; simpl. lra.
Qed.

Lemma stressed_raw_bounds : 0 <= stressed_raw f <= 705 # 1000.
Proof.
  pose proof stress_score_bounds. pose proof typing_score_bounds.
  pose proof accuracy_score_bounds.
  unfold stressed_raw, weights; simpl. lra.
Qed.

Lemma total_pos : 0 < total f.
Proof.
  pose proof happy_raw_bounds. pose proof stressed_raw_bounds.
  unfold total. lra.
Qed.

Lemma total_nonzero : ~ total f == 0.
Proof. pose proof total_pos. lra. Qed.

Lemma neutral_prob_pos : 0 < neutral_prob f.
Proof.
  unfold neutral_prob. apply Qlt_shift_div_l; [apply total_pos | lra].
Qed.

Lemma probabilities_sum : happy_prob f + stressed_prob f + neutral_prob f == 1.
Proof.
  unfold happy_prob, stressed_prob, neutral_prob.
  pose proof total_nonzero.
  setoid_replace (happy_raw f / total f + stressed_raw f / total f + 0.2 / total f)
    with ((happy_raw f + stressed_raw f + 0.2) / total f) by (field; assumption).
  fold (total f). field; assumption.
Qed.

End Bounds.

(** ** Step 4: the normalization *)


(** ** Step 5: the decision list *)

Section Decision.

Variable f : features.

Lemma guard1_reflect :
  reflect (guard1 f) (py_gt (happy_prob f) 0.5 && py_gt (smile_score f) 0.6).
Proof.
  unfold guard1.
  destruct (py_gt_reflect (happy_prob f) 0.5);
    destruct (py_gt_reflect (smile_score f) 0.6);
    constructor; tauto.
Qed.

Lemma guard2_reflect :
  reflect (guard2 f) (py_gt (stressed_prob f) 0.5 && py_gt (stress_score f) 0.6).
Proof.
  unfold guard2.
  destruct (py_gt_reflect (stressed_prob f) 0.5);
    destruct (py_gt_reflect (stress_score f) 0.6);
    constructor; tauto.
Qed.

Lemma guard3_reflect :
  reflect (guard3 f)
    (py_gt (happy_prob f) (stressed_prob f) && py_gt (smile_score f) 0.5).
Proof.
  unfold guard3.
  destruct (py_gt_reflect (happy_prob f) (stressed_prob f));
    destruct (py_gt_reflect (smile_score f) 0.5);
    constructor; tauto.
Qed.

(** The two probabilities cannot both exceed one half. *)
Lemma not_both_above_half :
  ~ (0.5 < happy_prob f /\ 0.5 < stressed_prob f).
Proof.
  intros [Hh Hs].
  pose proof (probabilities_sum f). pose proof (neutral_prob_pos f). lra.
Qed.

Lemma guards_exclusive : ~ (guard1 f /\ guard2 f).
Proof.
  intros [[Hh _] [Hs _]]. apply not_both_above_half. split; assumption.
Qed.

(** The [if]/[elif] chain is the decision list. *)
Lemma determined_spec_decision : determined f = spec_decision f.
Proof. reflexivity. Qed.

Lemma determined_cases :
  (guard1 f -> determined f = (happy, happy_prob f)) /\
  (~ guard1 f -> guard2 f -> determined f = (stressed, stressed_prob f)) /\
  (~ guard1 f -> ~ guard2 f -> guard3 f ->
   determined f = (happy, happy_prob f)) /\
  (~ guard1 f -> ~ guard2 f -> ~ guard3 f ->
   determined f = (neutral, neutral_prob f)).
Proof.
  unfold determined.
  destruct guard1_reflect as [G1 | G1];
    destruct guard2_reflect as [G2 | G2];
    destruct guard3_reflect as [G3 | G3];
    repeat split; intros; try reflexivity; contradiction.
Qed.

(** The confidence is the probability of the mood the list selects. *)
Lemma determined_confidence :
  snd (determined f) = prob_of f (fst (determined f)).
Proof.
  unfold determined.
  destruct (py_gt (happy_prob f) 0.5 && py_gt (smile_score f) 0.6);
    [reflexivity |].
  destruct (py_gt (stressed_prob f) 0.5 && py_gt (stress_score f) 0.6);
    [reflexivity |].
  destruct (py_gt (happy_prob f) (stressed_prob f)
            && py_gt (smile_score f) 0.5); reflexivity.
Qed.

End Decision.

(** C4: before the override, mood and confidence follow the ordered decision
    list, the first matching rule winning: happy with [happy_prob] under the
    first guard; else stressed with [stressed_prob] under the second; else
    happy with [happy_prob] under the third; else neutral with
    [neutral_prob]. *)
Theorem determined_follows_decision_list (f : features) :
  determined f = spec_decision f /\
  (guard1 f -> determined f = (happy, happy_prob f)) /\
  (~ guard1 f -> guard2 f -> determined f = (stressed, stressed_prob f)) /\
  (~ guard1 f -> ~ guard2 f -> guard3 f ->
   determined f = (happy, happy_prob f)) /\
  (~ guard1 f -> ~ guard2 f -> ~ guard3 f ->
   determined f = (neutral, neutral_prob f)).
Proof.
  split; [apply determined_spec_decision | apply determined_cases].
Qed.

Ltac refute_guard :=
  let H1 := fresh in let H2 := fresh in
  intros [H1 H2]; vm_compute in H1, H2;
  first [discriminate H1 | discriminate H2].

(** One request for each rule of the list: [smiling] matches the first,
    a stressed face the second, [tense] the third, and the request [{}]
    none. *)
Lemma determined_follows_decision_list_witness :
  determined smiling = (happy, happy_prob smiling)
  /\ determined (mkFeatures 0.1 0.9 0.7 0 0 50)
     = (stressed, stressed_prob (mkFeatures 0.1 0.9 0.7 0 0 50))
  /\ determined tense = (happy, happy_prob tense)
  /\ determined default_features = (neutral, neutral_prob default_features).
Proof.
  split; [| split; [| split]].
  - destruct (determined_follows_decision_list smiling) as [_ [H _]].
    apply H. split; reflexivity.
  - destruct (determined_follows_decision_list
                (mkFeatures 0.1 0.9 0.7 0 0 50)) as [_ [_ [H _]]].
    apply H; [refute_guard | split; reflexivity].
  - destruct (determined_follows_decision_list tense) as [_ [_ [_ [H _]]]].
    apply H; [refute_guard | refute_guard | split; reflexivity].
  - destruct (determined_follows_decision_list default_features)
      as [_ [_ [_ [_ H]]]].
    apply H; refute_guard.
Defined.

(** C8: [happy_prob] and [stressed_prob] never both exceed 0.5, because
    they add up to 1 with a strictly positive [neutral_prob]; the first two
    rules therefore exclude each other, and the decision list with these
    two rules swapped selects the same mood and confidence. *)
Theorem first_two_rules_exclusive (f : features) :
  0 < neutral_prob f /\
  ~ (0.5 < happy_prob f /\ 0.5 < stressed_prob f) /\
  ~ (guard1 f /\ guard2 f) /\
  spec_decision_swapped f = spec_decision f /\
  spec_decision_swapped f = determined f.
Proof.
  assert (Hswap : spec_decision_swapped f = spec_decision f).
  { pose proof (guards_exclusive f) as Hex.
    unfold spec_decision_swapped, spec_decision, spec_rule1, spec_rule2.
    cbn [first_match].
    destruct (guard1_reflect f); destruct (guard2_reflect f);
      try reflexivity.
    exfalso. apply Hex. split; assumption. }
  split; [apply neutral_prob_pos |].
  split; [apply not_both_above_half |].
  split; [apply guards_exclusive |].
  split; [exact Hswap |].
  rewrite Hswap. symmetry. apply determined_spec_decision.
Qed.

(** ** Step 6: the stress level *)

(** [int(x)] is truncation toward zero. *)
Lemma py_int_trunc (x : Q) : py_int x = trunc_toward_zero x.
Proof.
  unfold py_int, trunc_toward_zero. destruct x as [n d].
  destruct (Qle_bool 0 (n # d)) eqn:Hsign.
  - apply Qle_bool_iff in Hsign. unfold Qle in Hsign. simpl in Hsign.
    simpl. apply Z.quot_div_nonneg; lia.
  - apply not_true_iff_false in Hsign. rewrite Qle_bool_iff in Hsign.
    unfold Qle in Hsign. simpl in Hsign.
    unfold Qceiling, Qfloor, Qopp. simpl.
    rewrite <- (Z.opp_involutive n) at 1.
    rewrite Z.quot_opp_l by lia.
    rewrite Z.quot_div_nonneg by lia. reflexivity.
Qed.

(** The integer part keeps the sign and never exceeds [x] in magnitude. *)
Lemma trunc_toward_zero_spec (x : Q) :
  (0 <= x -> inject_Z (trunc_toward_zero x) <= x
             /\ x < inject_Z (trunc_toward_zero x) + 1) /\
  (x < 0 -> x <= inject_Z (trunc_toward_zero x)
            /\ inject_Z (trunc_toward_zero x) - 1 < x).
Proof.
  unfold trunc_toward_zero. split; intros Hx.
  - apply Qle_bool_iff in Hx. rewrite Hx.
    pose proof (Qfloor_le x) as Hlo. pose proof (Qlt_floor x) as Hhi.
    rewrite inject_Z_plus in Hhi. split; [exact Hlo | exact Hhi].
  - assert (Hf : Qle_bool 0 x = false).
    { apply not_true_iff_false. rewrite Qle_bool_iff. lra. }
    rewrite Hf.
    pose proof (Qle_ceiling x) as Hhi. pose proof (Qceiling_lt x) as Hlo.
    replace (Qceiling x - 1)%Z with (Qceiling x + - 1)%Z in Hlo by lia.
    rewrite inject_Z_plus in Hlo. split; [exact Hhi |].
    change (inject_Z (-1)) with (- (1)) in Hlo. lra.
Qed.

Lemma clamp_max_min (x : Z) : Z.max 0 (Z.min 100 x) = clamp 0 100 x.
Proof.
  unfold clamp.
  destruct (Z.ltb_spec x 0); [lia |].
  destruct (Z.ltb_spec 100 x); lia.
Qed.

Lemma stress_level_spec (f : features) : stress_level f = spec_stress_level f.
Proof.
  unfold stress_level, spec_stress_level, stress_level_int.
  rewrite clamp_max_min. fold (stress_real f).
  rewrite py_int_trunc. reflexivity.
Qed.

Lemma stress_level_range (f : features) : (0 <= stress_level f <= 100)%Z.
Proof. unfold stress_level. lia. Qed.



(** Truncation is not rounding: at 52.9 the level is 52, the nearest
    integer is 53. *)
Example stress_level_not_rounded :
  let f := mkFeatures 0.5 0.51 0 0 0 50 in
  stress_real f == 52.9 /\ stress_level f = 52%Z
  /\ rounded_stress_level f = 53%Z.
Proof. vm_compute. repeat split. Qed.

(** Truncation is toward zero, not downward: at -4.75 the integer part is
    -4, and the clamp then gives 0. *)
Example stress_level_negative :
  let f := mkFeatures 0.9 0.1 0.8 60 95 40 in
  stress_real f == - 4.75 /\ stress_level_int f = (- 4)%Z
  /\ stress_level f = 0%Z.
Proof. vm_compute. repeat split. Qed.

(** ** Step 7: the facial-confidence override *)

Section Override.

Variable f : features.

(** The three outcomes of the nested [if]. *)
Lemma adjusted_smile :
  0.6 < facial_confidence f -> 0.7 < smile_score f ->
  adjusted f = (happy, Z.max 0 (stress_level f - 20)).
Proof.
  intros Hc Hs. unfold adjusted.
  apply py_gt_spec in Hc. apply py_gt_spec in Hs.
  rewrite Hc, Hs. reflexivity.
Qed.

Lemma adjusted_stress :
  0.6 < facial_confidence f -> ~ 0.7 < smile_score f ->
  0.7 < stress_score f ->
  adjusted f = (stressed, Z.min 100 (stress_level f + 15)).
Proof.
  intros Hc Hs Ht. unfold adjusted.
  apply py_gt_spec in Hc. apply py_gt_spec in Ht.
  rewrite <- py_gt_spec in Hs. apply not_true_iff_false in Hs.
  rewrite Hc, Hs, Ht. reflexivity.
Qed.

Lemma adjusted_unchanged :
  ~ (0.6 < facial_confidence f /\ 0.7 < smile_score f) ->
  ~ (0.6 < facial_confidence f /\ 0.7 < stress_score f) ->
  adjusted f = (fst (determined f), stress_level f).
Proof.
  intros Hs Ht. unfold adjusted.
  destruct (py_gt_reflect (facial_confidence f) 0.6) as [Hc | Hc];
    [| reflexivity].
  destruct (py_gt_reflect (smile_score f) 0.7); [tauto |].
  destruct (py_gt_reflect (stress_score f) 0.7); [tauto | reflexivity].
Qed.

Lemma adjusted_range : (0 <= snd (adjusted f) <= 100)%Z.
Proof.
  pose proof (stress_level_range f). unfold adjusted.
  destruct (py_gt (facial_confidence f) 0.6); [| simpl; lia].
  destruct (py_gt (smile_score f) 0.7); [simpl; lia |].
  destruct (py_gt (stress_score f) 0.7); simpl; lia.
Qed.

Lemma score_stressLevel_range : (0 <= stressLevel (score f) <= 100)%Z.
Proof. apply adjusted_range. Qed.

End Override.

(** C5: with [facialConfidence > 0.6] and [smile_score > 0.7] the final
    mood is happy and the final stress level is the step-6 value minus 20,
    floored at 0; otherwise, with [facialConfidence > 0.6] and
    [stress_score > 0.7], the final mood is stressed and the final stress
    level is the step-6 value plus 15, capped at 100; the second branch is
    taken only when the first is not; when neither condition holds, the
    step-5 mood and the step-6 stress level are returned unchanged. *)
Theorem override_branches (f : features) :
  (0.6 < facial_confidence f /\ 0.7 < smile_score f ->
   mood (score f) = happy
   /\ stressLevel (score f) = Z.max 0 (stress_level f - 20)) /\
  (~ (0.6 < facial_confidence f /\ 0.7 < smile_score f) ->
   0.6 < facial_confidence f /\ 0.7 < stress_score f ->
   mood (score f) = stressed
   /\ stressLevel (score f) = Z.min 100 (stress_level f + 15)) /\
  (~ (0.6 < facial_confidence f /\ 0.7 < smile_score f) ->
   ~ (0.6 < facial_confidence f /\ 0.7 < stress_score f) ->
   mood (score f) = fst (determined f)
   /\ stressLevel (score f) = stress_level f).
Proof.
  unfold score; cbn [mood stressLevel].
  split; [| split].
  - intros [Hc Hs]. rewrite (adjusted_smile f Hc Hs). split; reflexivity.
  - intros Hn [Hc Ht].
    assert (Hs : ~ 0.7 < smile_score f) by tauto.
    rewrite (adjusted_stress f Hc Hs Ht). split; reflexivity.
  - intros Hs Ht. rewrite (adjusted_unchanged f Hs Ht). split; reflexivity.
Qed.

(** Each branch is taken by some request. *)
Lemma override_branches_witness :
  (mood (score smiling) = happy
   /\ stressLevel (score smiling) = Z.max 0 (stress_level smiling - 20)) /\
  (mood (score tense) = stressed
   /\ stressLevel (score tense) = Z.min 100 (stress_level tense + 15)) /\
  (mood (score unsure) = fst (determined unsure)
   /\ stressLevel (score unsure) = stress_level unsure).
Proof.
  split; [| split].
  - destruct (override_branches smiling) as [H _].
    apply H. split; reflexivity.
  - destruct (override_branches tense) as [_ [H _]].
    apply H.
    + intros [_ Hs]. vm_compute in Hs. discriminate Hs.
    + split; reflexivity.
  - destruct (override_branches unsure) as [_ [_ H]].
    apply H.
    + intros [Hc _]. vm_compute in Hc. discriminate Hc.
    + intros [Hc _]. vm_compute in Hc. discriminate Hc.
Defined.

(** The values on these requests. *)
Example override_values :
  (stress_level smiling = 0%Z /\ stressLevel (score smiling) = 0%Z) /\
  (fst (determined tense) = happy /\ stress_level tense = 59%Z
   /\ stressLevel (score tense) = 74%Z) /\
  (fst (determined unsure) = happy /\ stress_level unsure = 58%Z).
Proof. vm_compute. repeat split. Qed.

(** ** The scorer on a request *)

(** A call to the scorer that returns has scored six numbers. *)
Lemma analyze_mood_scores (data : json) (r : result) :
  analyze_mood data = Ok r -> exists f : features, r = score f.
Proof.
  unfold analyze_mood.
  repeat match goal with
         | |- context [bind ?c _] =>
             destruct c; cbn [bind]; try discriminate
         end.
  intros H. injection H as <-. eexists. reflexivity.
Qed.

(** C3: whatever the request, and whether the override subtracted 20, added
    15 or left the level alone, the [stressLevel] of a returned result is
    an integer from 0 to 100. *)
Theorem stressLevel_in_range (data : json) (r : result) :
  analyze_mood data = Ok r -> (0 <= stressLevel r <= 100)%Z.
Proof.
  intros H. apply analyze_mood_scores in H as [f ->].
  apply score_stressLevel_range.
Qed.

Lemma stressLevel_in_range_witness :
  analyze_mood tense_request = Ok (score tense)
  /\ (0 <= stressLevel (score tense) <= 100)%Z.
Proof.
  assert (H : analyze_mood tense_request = Ok (score tense)) by reflexivity.
  split; [exact H | exact (stressLevel_in_range tense_request _ H)].
Defined.

(** ** The confidence of the result *)

(** The override changes the mood and leaves the confidence of step 5: on
    [mixed_request] the mood returned is happy, the confidence is
    [neutral_prob], and [happy_prob] is another number. *)
Lemma confidence_not_of_overridden_mood :
  analyze_mood mixed_request = Ok (score mixed)
  /\ mood (score mixed) = happy
  /\ fst (determined mixed) = neutral
  /\ confidence (score mixed) == 0.2 / 1.58
  /\ prob_of mixed (mood (score mixed)) == 0.675 / 1.58
  /\ ~ confidence (score mixed) == prob_of mixed (mood (score mixed)).
Proof.
  split; [reflexivity |].
  split; [reflexivity |].
  split; [reflexivity |].
  split; [reflexivity |].
  split; [reflexivity |].
  intros H. vm_compute in H. discriminate H.
Qed.

(** The same happens toward stressed: on [tense_request] the decision list
    selects happy, the override returns stressed, and the confidence stays
    [happy_prob]. *)
Example confidence_not_of_overridden_mood_stressed :
  mood (score tense) = stressed
  /\ confidence (score tense) = happy_prob tense
  /\ ~ confidence (score tense) == prob_of tense (mood (score tense)).
Proof.
  split; [reflexivity |].
  split; [reflexivity |].
  intros H. vm_compute in H. discriminate H.
Qed.

(** C1, amended: the confidence of the result is the normalized probability
    of the mood that the step-5 decision list selected; it is the
    probability of the mood returned whenever the step-7 override leaves
    that mood as it was, in particular whenever [facialConfidence] is at
    most 0.6. *)
Theorem confidence_of_determined_mood (f : features) :
  confidence (score f) = prob_of f (fst (determined f)) /\
  (mood (score f) = fst (determined f) ->
   confidence (score f) = prob_of f (mood (score f))) /\
  (facial_confidence f <= 0.6 ->
   confidence (score f) = prob_of f (mood (score f))).
Proof.
  assert (Hc : confidence (score f) = prob_of f (fst (determined f)))
    by apply determined_confidence.
  split; [exact Hc |].
  split.
  - intros Hm. rewrite Hm. exact Hc.
  - intros Hfc. rewrite Hc. f_equal.
    unfold score; cbn [mood]. unfold adjusted.
    apply py_gt_false in Hfc. rewrite Hfc. reflexivity.
Qed.

Lemma confidence_of_determined_mood_witness :
  confidence (score unsure) = prob_of unsure (mood (score unsure))
  /\ confidence (score smiling) = prob_of smiling (mood (score smiling)).
Proof.
  split.
  - destruct (confidence_of_determined_mood unsure) as [_ [_ H]].
    apply H. vm_compute. discriminate.
  - destruct (confidence_of_determined_mood smiling) as [_ [H _]].
    apply H. reflexivity.
Defined.

(** ** Monotonicity in [avgSmile] *)






(** The values at the two ends of that step. *)
Example happy_prob_values :
  happy_prob (with_avg_smile default_features 0.2) == 0.18 / 0.785
  /\ happy_prob (with_avg_smile default_features 0.9) == 0.81 / 1.415.
Proof. split; reflexivity. Qed.

(** ** The voice level *)

Lemma fifth (x : Q) : x / 5 == x * (1 # 5).
Proof. reflexivity. Qed.

Lemma inject_Z_pred (z : Z) : inject_Z (z - 1) == inject_Z z - 1.
Proof.
  unfold Z.sub. rewrite inject_Z_plus, inject_Z_opp. reflexivity.
Qed.

Section Voice.

Variables (f : features) (v : Q).

(** Steps 2 to 5 do not read [voice_level]. *)
Lemma determined_voice : determined (with_voice_level f v) = determined f.
Proof. reflexivity. Qed.

Lemma mood_voice : mood (score (with_voice_level f v)) = mood (score f).
Proof.
  unfold score; cbn [mood]. unfold adjusted.
  change (facial_confidence (with_voice_level f v))
    with (facial_confidence f).
  change (smile_score (with_voice_level f v)) with (smile_score f).
  change (stress_score (with_voice_level f v)) with (stress_score f).
  rewrite determined_voice.
  destruct (py_gt (facial_confidence f) 0.6); [| reflexivity].
  destruct (py_gt (smile_score f) 0.7); [reflexivity |].
  destruct (py_gt (stress_score f) 0.7); reflexivity.
Qed.

Lemma confidence_voice :
  confidence (score (with_voice_level f v)) = confidence (score f).
Proof. reflexivity. Qed.

Lemma probabilities_voice :
  probabilities (score (with_voice_level f v)) = probabilities (score f).
Proof. reflexivity. Qed.

(** Step 6 reads it as it came: a fifth of it is added, whatever its
    size. *)
Lemma stress_real_voice :
  stress_real (with_voice_level f v)
  == stress_real f + (v - voice_level f) / 5.
Proof.
  unfold stress_real.
  change (stress_score (with_voice_level f v)) with (stress_score f).
  change (typing_score (with_voice_level f v)) with (typing_score f).
  change (accuracy_score (with_voice_level f v)) with (accuracy_score f).
  change (smile_score (with_voice_level f v)) with (smile_score f).
  change (voice_level (with_voice_level f v)) with v.
  field.
Qed.

(** A loud enough room alone saturates the stress level ... *)
Lemma stress_level_loud : 630 <= v -> stress_level (with_voice_level f v) = 100%Z.
Proof.
  intros Hv. rewrite stress_level_spec. unfold spec_stress_level.
  pose proof (stress_score_bounds f). pose proof (typing_score_bounds f).
  pose proof (accuracy_score_bounds f). pose proof (smile_score_bounds f).
  assert (Hreal : 101 <= stress_real (with_voice_level f v)).
  { unfold stress_real.
    change (stress_score (with_voice_level f v)) with (stress_score f).
    change (typing_score (with_voice_level f v)) with (typing_score f).
    change (accuracy_score (with_voice_level f v)) with (accuracy_score f).
    change (smile_score (with_voice_level f v)) with (smile_score f).
    change (voice_level (with_voice_level f v)) with v.
    rewrite fifth. lra. }
  destruct (trunc_toward_zero_spec (stress_real (with_voice_level f v)))
    as [Hpos _].
  destruct Hpos as [_ Hhi]; [lra |].
  assert (Hz : (100 < trunc_toward_zero
                        (stress_real (with_voice_level f v)) + 1)%Z).
  { rewrite Zlt_Qlt, inject_Z_plus.
    change (inject_Z 100) with 100. change (inject_Z 1) with 1. lra. }
  unfold clamp.
  destruct (Z.ltb_spec
              (trunc_toward_zero (stress_real (with_voice_level f v))) 0);
    [lia |].
  destruct (Z.ltb_spec 100
              (trunc_toward_zero (stress_real (with_voice_level f v))));
    lia.
Qed.

(** ... and a negative enough level alone empties it. *)
Lemma stress_level_silent : v <= - 375 -> stress_level (with_voice_level f v) = 0%Z.
Proof.
  intros Hv. rewrite stress_level_spec. unfold spec_stress_level.
  pose proof (stress_score_bounds f). pose proof (typing_score_bounds f).
  pose proof (accuracy_score_bounds f). pose proof (smile_score_bounds f).
  assert (Hreal : stress_real (with_voice_level f v) <= 0).
  { unfold stress_real.
    change (stress_score (with_voice_level f v)) with (stress_score f).
    change (typing_score (with_voice_level f v)) with (typing_score f).
    change (accuracy_score (with_voice_level f v)) with (accuracy_score f).
    change (smile_score (with_voice_level f v)) with (smile_score f).
    change (voice_level (with_voice_level f v)) with v.
    rewrite fifth. lra. }
  assert (Hz : (trunc_toward_zero (stress_real (with_voice_level f v))
                <= 0)%Z).
  { destruct (Qlt_le_dec (stress_real (with_voice_level f v)) 0) as [Hn | Hp].
    - destruct (trunc_toward_zero_spec
                  (stress_real (with_voice_level f v))) as [_ Hneg].
      destruct (Hneg Hn) as [_ Hlo].
      assert (Hlt : (trunc_toward_zero
                       (stress_real (with_voice_level f v)) - 1 < 0)%Z).
      { rewrite Zlt_Qlt, inject_Z_pred. change (inject_Z 0) with 0.
        lra. }
      lia.
    - destruct (trunc_toward_zero_spec
                  (stress_real (with_voice_level f v))) as [Hpos _].
      destruct (Hpos Hp) as [Hlo _].
      rewrite Zle_Qle. change (inject_Z 0) with 0. lra. }
  unfold clamp.
  destruct (Z.ltb_spec
              (trunc_toward_zero (stress_real (with_voice_level f v))) 0);
    [reflexivity |].
  destruct (Z.ltb_spec 100
              (trunc_toward_zero (stress_real (with_voice_level f v))));
    lia.
Qed.

End Voice.

(** Two request objects with the same [facial] and [typing] entries, the
    [voice] entry being anything: when both are scored, the results agree
    on everything but [stressLevel]. *)
Lemma analyze_mood_voice (items1 items2 : list (string * json))
      (r1 r2 : result) :
  lookup "facial" items1 = lookup "facial" items2 ->
  lookup "typing" items1 = lookup "typing" items2 ->
  analyze_mood (JDict items1) = Ok r1 ->
  analyze_mood (JDict items2) = Ok r2 ->
  mood r1 = mood r2 /\ confidence r1 = confidence r2
  /\ probabilities r1 = probabilities r2.
Proof.
  intros Hfacial Htyping. unfold analyze_mood. cbn [get bind].
  rewrite Hfacial, Htyping.
  repeat match goal with
         | |- context [bind ?c _] =>
             destruct c; cbn [bind]; try (intros; discriminate)
         end.
  intros H1 H2. injection H1 as <-. injection H2 as <-.
  match goal with
  | |- mood (score (mkFeatures ?a ?b ?c ?d ?e ?v1))
       = mood (score (mkFeatures _ _ _ _ _ ?v2)) /\ _ =>
      pose proof (mood_voice (mkFeatures a b c d e v2) v1) as Hm
  end.
  split; [exact Hm |]. split; reflexivity.
Qed.

(** C9: requests that differ only in [avgVoiceLevel], given or left out,
    get the same mood, confidence and probabilities; the level reaches the
    stress formula as it came, a fifth of it added without any clamp, so a
    large one alone drives [stress_level] to 100 and a very negative one to
    0. *)
Theorem voice_level_moves_stressLevel_only :
  (forall (items1 items2 : list (string * json)) (r1 r2 : result),
      lookup "facial" items1 = lookup "facial" items2 ->
      lookup "typing" items1 = lookup "typing" items2 ->
      analyze_mood (JDict items1) = Ok r1 ->
      analyze_mood (JDict items2) = Ok r2 ->
      mood r1 = mood r2 /\ confidence r1 = confidence r2
      /\ probabilities r1 = probabilities r2) /\
  (forall (f : features) (v : Q),
      mood (score (with_voice_level f v)) = mood (score f)
      /\ confidence (score (with_voice_level f v)) = confidence (score f)
      /\ probabilities (score (with_voice_level f v))
         = probabilities (score f)) /\
  (forall (f : features) (v : Q),
      stress_real (with_voice_level f v)
      == stress_real f + (v - voice_level f) / 5) /\
  (forall (f : features) (v : Q),
      630 <= v -> stress_level (with_voice_level f v) = 100%Z) /\
  (forall (f : features) (v : Q),
      v <= - 375 -> stress_level (with_voice_level f v) = 0%Z).
Proof.
  split; [exact analyze_mood_voice |].
  split.
  { intros f v. split; [apply mood_voice |]. split; reflexivity. }
  split; [exact stress_real_voice |].
  split; [exact stress_level_loud | exact stress_level_silent].
Qed.

(** The request [{}] against the same request with a voice level of 1000:
    same mood, confidence and probabilities, stress level 52 against 100. *)
Lemma voice_level_moves_stressLevel_only_witness :
  (mood (score default_features)
   = mood (score (with_voice_level default_features 1000))
   /\ confidence (score default_features)
      = confidence (score (with_voice_level default_features 1000))
   /\ probabilities (score default_features)
      = probabilities (score (with_voice_level default_features 1000)))
  /\ stressLevel (score default_features) = 52%Z
  /\ stress_level (with_voice_level default_features 1000) = 100%Z.
Proof.
  destruct voice_level_moves_stressLevel_only as [Hjson [_ [_ [Hloud _]]]].
  split; [| split].
  - apply (Hjson [] [("voice", JDict [("avgVoiceLevel", JInt 1000)])]);
      reflexivity.
  - reflexivity.
  - apply Hloud. vm_compute. discriminate.
Defined.

(** ** The route on a body that is not an object *)

(** Only a dict has [get]; a missing key gets the default, a key that is
    there gets its value, [null] included. *)
Lemma get_not_dict (o : json) (k : string) (d : json) :
  is_dict o = false ->
  get o k d
  = Raise (AttributeError
             ("'" ++ type_name o ++ "' object has no attribute 'get'")).
Proof. destruct o; intros H; try reflexivity. discriminate H. Qed.


Lemma get_present (items : list (string * json)) (k : string) (v d : json) :
  lookup k items = Some v -> get (JDict items) k d = Ok v.
Proof. intros H. unfold get. rewrite H. reflexivity. Qed.




(** An object whose entry is not an object, or whose field is [null], is a
    server error as well: the default stands in for a missing key only. *)
Example present_null_is_server_error :
  App.analyze_mood (JDict [("facial", JNull)])
  = App.mkResponse 500
      (App.ErrorBody false "'NoneType' object has no attribute 'get'")
  /\ App.analyze_mood (JDict [("facial", JDict [("avgSmile", JNull)])])
     = App.mkResponse 500
         (App.ErrorBody false
            "'<' not supported between instances of 'NoneType' and 'int'")
  /\ App.analyze_mood (JDict [("typing", JDict [("wpm", JStr "60")])])
     = App.mkResponse 500
         (App.ErrorBody false
            "unsupported operand type(s) for /: 'str' and 'int'").
Proof. repeat split. Qed.

(** The fixed result of the request [{}]. *)
Example empty_request_result :
  analyze_mood (JDict []) = Ok (score default_features)
  /\ mood (score default_features) = neutral
  /\ stressLevel (score default_features) = 52%Z
  /\ confidence (score default_features) == 0.2 / 1.055
  /\ p_happy (probabilities (score default_features)) == 0.43
  /\ p_stressed (probabilities (score default_features)) == 0.38
  /\ p_neutral (probabilities (score default_features)) == 0.19.
Proof. repeat split. Qed.

(** The two scenarios of the specification. *)
Example smiling_request_result :
  analyze_mood smiling_request = Ok (score smiling)
  /\ mood (score smiling) = happy
  /\ stressLevel (score smiling) = 0%Z.
Proof. repeat split. Qed.

Example stressed_request_result :
  analyze_mood
    (JDict [("facial", JDict [("avgSmile", JFloat 0.1);
                              ("avgStressIndicator", JFloat 0.9);
                              ("facialConfidence", JFloat 0.7)])])
  = Ok (score (mkFeatures 0.1 0.9 0.7 0 0 50))
  /\ mood (score (mkFeatures 0.1 0.9 0.7 0 0 50)) = stressed
  /\ stress_level (mkFeatures 0.1 0.9 0.7 0 0 50) = 78%Z
  /\ stressLevel (score (mkFeatures 0.1 0.9 0.7 0 0 50)) = 93%Z.
Proof. repeat split. Qed.

(** ** Further properties of the scorer *)

(** *** The divisor and the ranges of the probabilities *)

(** The typing terms of the two raw weights cancel in their sum. *)
Lemma total_formula (f : features) :
  total f == 0.9 * smile_score f + 0.6 * stress_score f + 0.305.
Proof.
  unfold total, happy_raw, stressed_raw, weights; simpl. ring.
Qed.

Lemma total_bounds (f : features) : 0.305 <= total f <= 1.805.
Proof.
  pose proof (smile_score_bounds f). pose proof (stress_score_bounds f).
  rewrite total_formula. lra.
Qed.

(** A probability is its raw weight's share of [total]. *)
Lemma happy_prob_total (f : features) : happy_raw f == happy_prob f * total f.
Proof. unfold happy_prob. field. apply total_nonzero. Qed.

Lemma stressed_prob_total (f : features) :
  stressed_raw f == stressed_prob f * total f.
Proof. unfold stressed_prob. field. apply total_nonzero. Qed.

Lemma neutral_prob_total (f : features) : 0.2 == neutral_prob f * total f.
Proof. unfold neutral_prob. field. apply total_nonzero. Qed.

Lemma happy_prob_nonneg (f : features) : 0 <= happy_prob f.
Proof.
  unfold happy_prob. apply Qle_shift_div_l; [apply total_pos |].
  pose proof (happy_raw_bounds f). lra.
Qed.

Lemma stressed_prob_nonneg (f : features) : 0 <= stressed_prob f.
Proof.
  unfold stressed_prob. apply Qle_shift_div_l; [apply total_pos |].
  pose proof (stressed_raw_bounds f). lra.
Qed.

Lemma neutral_prob_bounds (f : features) :
  0.2 / 1.805 <= neutral_prob f <= 0.2 / 0.305.
Proof.
  pose proof (total_bounds f) as [Hlo Hhi]. pose proof (total_pos f) as Hpos.
  unfold neutral_prob. split.
  - apply Qle_shift_div_l; [exact Hpos |].
    assert (E : 0.2 / 1.805 == 40 # 361) by reflexivity.
    rewrite E. lra.
  - apply Qle_shift_div_r; [exact Hpos |].
    assert (E : 0.2 / 0.305 == 40 # 61) by reflexivity.
    rewrite E. lra.
Qed.


(** X2: each of the three normalized probabilities is a number from 0 to 1:
    [happy_prob] and [stressed_prob] from 0 (included) to below 1,
    [neutral_prob] strictly between them. *)
Theorem probabilities_in_unit_interval (f : features) :
  (0 <= happy_prob f /\ happy_prob f < 1)
  /\ (0 <= stressed_prob f /\ stressed_prob f < 1)
  /\ (0 < neutral_prob f /\ neutral_prob f < 1).
Proof.
  pose proof (probabilities_sum f) as Hsum.
  pose proof (happy_prob_nonneg f) as Hh.
  pose proof (stressed_prob_nonneg f) as Hs.
  pose proof (neutral_prob_pos f) as Hn.
  pose proof (neutral_prob_bounds f) as [_ Hhi].
  assert (E : 0.2 / 0.305 == 40 # 61) by reflexivity.
  rewrite E in Hhi.
  repeat split; lra.
Qed.

(** *** The confidence and the mood *)

Lemma determined_confidence_bounds (f : features) :
  0 < snd (determined f) /\ snd (determined f) < 1.
Proof.
  pose proof (probabilities_sum f) as Hsum.
  pose proof (happy_prob_nonneg f) as Hh.
  pose proof (stressed_prob_nonneg f) as Hs.
  pose proof (neutral_prob_pos f) as Hn.
  pose proof (neutral_prob_bounds f) as [_ Hhi].
  assert (E : 0.2 / 0.305 == 40 # 61) by reflexivity.
  rewrite E in Hhi.
  unfold determined.
  destruct (guard1_reflect f) as [[G _] | _]; [cbn [snd]; split; lra |].
  destruct (guard2_reflect f) as [[G _] | _]; [cbn [snd]; split; lra |].
  destruct (guard3_reflect f) as [[G _] | _]; cbn [snd]; split; lra.
Qed.

(** X3: the confidence of every result lies strictly between 0 and 1. *)
Theorem confidence_strictly_between_0_and_1 (f : features) :
  0 < confidence (score f) /\ confidence (score f) < 1.
Proof. apply determined_confidence_bounds. Qed.

(** What the decision list needs for each label. *)
Lemma determined_happy (f : features) :
  fst (determined f) = happy -> 0.5 < smile_score f.
Proof.
  unfold determined.
  destruct (guard1_reflect f) as [[_ G] | _]; [intros _; lra |].
  destruct (guard2_reflect f) as [_ | _]; [discriminate |].
  destruct (guard3_reflect f) as [[_ G] | _]; [intros _; exact G |].
  discriminate.
Qed.

Lemma determined_stressed (f : features) :
  fst (determined f) = stressed ->
  0.5 < stressed_prob f /\ 0.6 < stress_score f.
Proof.
  unfold determined.
  destruct (guard1_reflect f) as [_ | _]; [discriminate |].
  destruct (guard2_reflect f) as [G | _]; [intros _; exact G |].
  destruct (guard3_reflect f) as [_ | _]; discriminate.
Qed.

(** X4: a result is happy only for a smile score above 0.5 and stressed
    only for a stress score above 0.6, whether the label comes from the
    decision list or from the override. *)
Theorem mood_needs_its_signal (f : features) :
  (mood (score f) = happy -> 0.5 < smile_score f)
  /\ (mood (score f) = stressed -> 0.6 < stress_score f).
Proof.
  unfold score; cbn [mood]. unfold adjusted.
  destruct (py_gt (facial_confidence f) 0.6).
  - destruct (py_gt_reflect (smile_score f) 0.7) as [Hs | _].
    + cbn [fst]. split; [intros _; lra | discriminate].
    + destruct (py_gt_reflect (stress_score f) 0.7) as [Ht | _]; cbn [fst].
      * split; [discriminate | intros _; lra].
      * split; [apply determined_happy | apply determined_stressed].
  - cbn [fst]. split; [apply determined_happy | apply determined_stressed].
Qed.

Lemma mood_needs_its_signal_witness :
  0.5 < smile_score smiling /\ 0.6 < stress_score tense.
Proof.
  split.
  - destruct (mood_needs_its_signal smiling) as [H _]. apply H. reflexivity.
  - destruct (mood_needs_its_signal tense) as [_ H]. apply H. reflexivity.
Defined.

(** A stressed decision leaves no room for a broad smile. *)
Lemma stressed_decision_smile (f : features) :
  0.5 < stressed_prob f -> smile_score f < 0.7.
Proof.
  intros H.
  pose proof (total_pos f) as Hpos.
  pose proof (stressed_prob_total f) as Hraw.
  pose proof (stressed_raw_bounds f) as [_ Hmax].
  pose proof (typing_score_bounds f). pose proof (accuracy_score_bounds f).
  assert (Hhalf : 0.5 * total f < stressed_prob f * total f)
    by (apply Qmult_lt_compat_r; assumption).
  assert (Hh : 0.9 * smile_score f <= happy_raw f)
    by (unfold happy_raw, weights; simpl; lra).
  rewrite <- Hraw in Hhalf. unfold total in Hhalf. lra.
Qed.

(** X5: the override never takes back a stressed decision: when the
    decision list selects stressed, the mood returned is stressed. *)
Theorem stressed_decision_is_final (f : features) :
  fst (determined f) = stressed -> mood (score f) = stressed.
Proof.
  intros Hd. destruct (determined_stressed f Hd) as [Hp _].
  pose proof (stressed_decision_smile f Hp) as Hs.
  unfold score; cbn [mood]. unfold adjusted.
  destruct (py_gt (facial_confidence f) 0.6); [| exact Hd].
  destruct (py_gt_reflect (smile_score f) 0.7) as [Hgt | _]; [lra |].
  destruct (py_gt (stress_score f) 0.7); [reflexivity | exact Hd].
Qed.

Lemma stressed_decision_is_final_witness :
  mood (score (mkFeatures 0.1 0.9 0.7 0 0 50)) = stressed.
Proof.
  apply (stressed_decision_is_final (mkFeatures 0.1 0.9 0.7 0 0 50)).
  reflexivity.
Defined.

(** *** The rounded probabilities *)

Lemma round_half_even_close (x : Q) :
  x - (1 # 2) <= inject_Z (round_half_even x) <= x + (1 # 2).
Proof.
  unfold round_half_even.
  pose proof (Qfloor_le x) as Hlo. pose proof (Qlt_floor x) as Hhi.
  rewrite inject_Z_plus in Hhi. change (inject_Z 1) with 1 in Hhi.
  destruct (Qcompare_spec (x - inject_Z (Qfloor x)) (1 # 2)) as [He | Hl | Hg].
  - destruct (Z.even (Qfloor x)).
    + split; lra.
    + rewrite inject_Z_plus. change (inject_Z 1) with 1. split; lra.
  - split; lra.
  - rewrite inject_Z_plus. change (inject_Z 1) with 1. split; lra.
Qed.

Lemma py_round_2_close (x : Q) : x - 0.005 <= py_round x 2 <= x + 0.005.
Proof.
  unfold py_round. change (inject_Z (10 ^ Z.of_nat 2)) with 100.
  pose proof (round_half_even_close (x * 100)) as [Hlo Hhi].
  split.
  - apply Qle_shift_div_l; [reflexivity | lra].
  - apply Qle_shift_div_r; [reflexivity | lra].
Qed.

Lemma py_round_2_hundredths (x : Q) :
  0 <= x <= 1 -> rounded_to_hundredths x (py_round x 2).
Proof.
  intros [Hx0 Hx1]. split; [| apply py_round_2_close].
  exists (round_half_even (x * 100)). split; [| reflexivity].
  pose proof (round_half_even_close (x * 100)) as [Hlo Hhi].
  split.
  - assert (H : (-1 < round_half_even (x * 100))%Z).
    { rewrite Zlt_Qlt. change (inject_Z (-1)) with (- (1)). lra. }
    lia.
  - assert (H : (round_half_even (x * 100) < 101)%Z).
    { rewrite Zlt_Qlt. change (inject_Z 101) with 101. lra. }
    lia.
Qed.

(** X6: each probability of the result is a whole number of hundredths
    from 0 to 1, at most 0.005 away from the normalized probability it
    rounds; the three of them sum to between 0.985 and 1.015. *)
Theorem probabilities_rounded_to_hundredths (f : features) :
  rounded_to_hundredths (happy_prob f) (p_happy (probabilities (score f)))
  /\ rounded_to_hundredths (stressed_prob f)
                           (p_stressed (probabilities (score f)))
  /\ rounded_to_hundredths (neutral_prob f)
                           (p_neutral (probabilities (score f)))
  /\ 0.985 <= p_happy (probabilities (score f))
              + p_stressed (probabilities (score f))
              + p_neutral (probabilities (score f)) <= 1.015.
Proof.
  pose proof (probabilities_sum f) as Hsum.
  pose proof (happy_prob_nonneg f) as Hh.
  pose proof (stressed_prob_nonneg f) as Hs.
  pose proof (neutral_prob_pos f) as Hn.
  cbn [score probabilities p_happy p_stressed p_neutral].
  pose proof (py_round_2_close (happy_prob f)) as [Hh1 Hh2].
  pose proof (py_round_2_close (stressed_prob f)) as [Hs1 Hs2].
  pose proof (py_round_2_close (neutral_prob f)) as [Hn1 Hn2].
  split; [apply py_round_2_hundredths; split; lra |].
  split; [apply py_round_2_hundredths; split; lra |].
  split; [apply py_round_2_hundredths; split; lra |].
  split; lra.
Qed.

(** The rounded probabilities need not sum to 1: with no smile, no stress
    indicator and an accuracy of 50 they are 0.05, 0.30 and 0.66. *)
Example rounded_sum_above_one :
  p_happy (probabilities (score blank_face)) == 0.05
  /\ p_stressed (probabilities (score blank_face)) == 0.30
  /\ p_neutral (probabilities (score blank_face)) == 0.66.
Proof. repeat split. Qed.

(** *** Inputs outside the expected range *)




Lemma eighty (x : Q) : x / 80 == x * (1 # 80).
Proof. reflexivity. Qed.

Lemma hundred (x : Q) : x / 100 == x * (1 # 100).
Proof. reflexivity. Qed.



(** *** The stress level grows with the tension of the request *)

Lemma trunc_toward_zero_mono (x y : Q) :
  x <= y -> (trunc_toward_zero x <= trunc_toward_zero y)%Z.
Proof.
  intros Hxy. unfold trunc_toward_zero.
  destruct (Qle_bool 0 x) eqn:Hx; destruct (Qle_bool 0 y) eqn:Hy.
  - apply Qfloor_resp_le. exact Hxy.
  - apply Qle_bool_iff in Hx.
    apply not_true_iff_false in Hy. rewrite Qle_bool_iff in Hy. lra.
  - apply not_true_iff_false in Hx. rewrite Qle_bool_iff in Hx.
    apply Qle_bool_iff in Hy.
    assert (Hc : (Qceiling x <= Qceiling 0)%Z)
      by (apply Qceiling_resp_le; lra).
    assert (Hf : (Qfloor 0 <= Qfloor y)%Z)
      by (apply Qfloor_resp_le; exact Hy).
    change (Qceiling 0) with 0%Z in Hc. change (Qfloor 0) with 0%Z in Hf.
    lia.
  - apply Qceiling_resp_le. exact Hxy.
Qed.

Section Tension.

Variables f g : features.
Hypothesis Hfg : no_calmer f g.

Lemma no_calmer_smile : smile_score g <= smile_score f.
Proof. apply clamp01_mono. apply Hfg. Qed.

Lemma no_calmer_stress : stress_score f <= stress_score g.
Proof. apply clamp01_mono. apply Hfg. Qed.

Lemma no_calmer_typing : typing_score g <= typing_score f.
Proof.
  apply clamp01_mono. rewrite !eighty.
  destruct Hfg as [_ [_ [_ [Hw _]]]]. lra.
Qed.

Lemma no_calmer_accuracy : accuracy_score g <= accuracy_score f.
Proof.
  apply clamp01_mono. rewrite !hundred.
  destruct Hfg as [_ [_ [_ [_ [Ha _]]]]]. lra.
Qed.

Lemma no_calmer_stress_real : stress_real f <= stress_real g.
Proof.
  pose proof no_calmer_smile. pose proof no_calmer_stress.
  pose proof no_calmer_typing. pose proof no_calmer_accuracy.
  destruct Hfg as [_ [_ [_ [_ [_ Hv]]]]].
  unfold stress_real. rewrite !fifth. lra.
Qed.

Lemma no_calmer_stress_level : (stress_level f <= stress_level g)%Z.
Proof.
  rewrite !stress_level_spec. unfold spec_stress_level.
  pose proof (trunc_toward_zero_mono _ _ no_calmer_stress_real) as H.
  rewrite <- !clamp_max_min. lia.
Qed.

Lemma no_calmer_adjusted : (snd (adjusted f) <= snd (adjusted g))%Z.
Proof.
  pose proof no_calmer_smile as Hsm. pose proof no_calmer_stress as Hst.
  pose proof no_calmer_stress_level as Hsl.
  pose proof (stress_level_range f). pose proof (stress_level_range g).
  destruct Hfg as [Hfc _].
  unfold adjusted. rewrite Hfc.
  destruct (py_gt (facial_confidence f) 0.6); [| cbn [snd]; exact Hsl].
  destruct (py_gt_reflect (smile_score f) 0.7);
    destruct (py_gt_reflect (smile_score g) 0.7);
    destruct (py_gt_reflect (stress_score f) 0.7);
    destruct (py_gt_reflect (stress_score g) 0.7);
    cbn [snd]; try lia; lra.
Qed.

End Tension.

(** X8: the stress level follows the tension of the request: with the same
    facial confidence, a request with no more smile, typing speed or
    accuracy and no less stress indicator or voice level never gets a
    lower [stressLevel], the override included. *)
Theorem stressLevel_monotone (f g : features) :
  no_calmer f g -> (stressLevel (score f) <= stressLevel (score g))%Z.
Proof. intros H. apply no_calmer_adjusted. exact H. Qed.

Lemma stressLevel_monotone_witness :
  (stressLevel (score smiling) <= stressLevel (score mixed))%Z.
Proof.
  apply (stressLevel_monotone smiling mixed).
  unfold no_calmer; cbn.
  split; [reflexivity |]. repeat split; vm_compute; discriminate.
Defined.

(** The two levels of that pair. *)
Example stressLevel_monotone_values :
  stressLevel (score smiling) = 0%Z /\ stressLevel (score mixed) = 46%Z.
Proof. split; reflexivity. Qed.

(** *** Typing and the probabilities *)

Section Typing.

Variables f g : features.
Hypothesis Hsmile : avg_smile g = avg_smile f.
Hypothesis Hstress : avg_stress_indicator g = avg_stress_indicator f.
Hypothesis Hwpm : wpm f <= wpm g.
Hypothesis Haccuracy : accuracy f <= accuracy g.






End Typing.



(** ** Which requests the scorer accepts *)

Lemma get_group (items : list (string * json)) (k : string) :
  get (JDict items) k (JDict []) = Ok (group items k).
Proof. reflexivity. Qed.

Lemma get_field (g : json) (k : string) (d : json) :
  is_dict g = true -> get g k d = Ok (field g k d).
Proof. destruct g; intros H; try discriminate H. reflexivity. Qed.

Lemma get_raises (g : json) (k : string) (d : json) :
  is_dict g = false -> exists msg, get g k d = Raise (AttributeError msg).
Proof. intros H. rewrite (get_not_dict g k d H). eexists. reflexivity. Qed.

Lemma number_of_is_number (v : json) (d : Q) :
  is_number v = true -> number v = Some (number_or v d).
Proof.
  unfold is_number, number_or. destruct (number v); [reflexivity | discriminate].
Qed.

Lemma compared_number (op : string) (v : json) (cty : string) (d : Q) :
  is_number v = true -> compared op v cty = Ok (number_or v d).
Proof.
  intros H. unfold compared. rewrite (number_of_is_number v d H). reflexivity.
Qed.

Lemma dividend_number (v : json) (d : Q) :
  is_number v = true -> dividend v = Ok (number_or v d).
Proof.
  intros H. unfold dividend. rewrite (number_of_is_number v d H). reflexivity.
Qed.

Lemma compared_raises (op : string) (v : json) (cty : string) :
  is_number v = false -> exists msg, compared op v cty = Raise (TypeError msg).
Proof.
  unfold is_number, compared. destruct (number v); [discriminate |].
  intros _. eexists. reflexivity.
Qed.

Lemma dividend_raises (v : json) :
  is_number v = false -> exists msg, dividend v = Raise (TypeError msg).
Proof.
  unfold is_number, dividend. destruct (number v); [discriminate |].
  intros _. eexists. reflexivity.
Qed.

(** A well-typed request is scored on the numbers it carries. *)
Lemma analyze_mood_well_typed (data : json) :
  well_typed data = true -> analyze_mood data = Ok (score (features_of data)).
Proof.
  destruct data as [| | | | | | items]; try discriminate.
  unfold well_typed, groups_ok, fields_ok. rewrite !andb_true_iff.
  intros [[[Hg1 Hg2] Hg3] [[[[[Hf1 Hf2] Hf3] Hf4] Hf5] Hf6]].
  unfold analyze_mood. rewrite !get_group. cbn [bind].
  rewrite !get_field by assumption. cbn [bind].
  rewrite (compared_number "<" _ "int" 0.5 Hf1). cbn [bind].
  rewrite (compared_number "<" _ "int" 0.5 Hf2). cbn [bind].
  rewrite (dividend_number _ 0 Hf4). cbn [bind].
  rewrite (dividend_number _ 0 Hf5). cbn [bind].
  rewrite (dividend_number _ 50 Hf6). cbn [bind].
  rewrite (compared_number ">" _ "float" 0 Hf3). cbn [bind].
  reflexivity.
Qed.

(** What a request that is not well typed raises: [AttributeError] when an
    entry is not an object, [TypeError] otherwise. *)
Lemma analyze_mood_ill_typed (data : json) :
  well_typed data = false ->
  exists e, analyze_mood data = Raise e
            /\ is_attribute_error e = negb (groups_ok data).
Proof.
  destruct data as [| | | | | | items];
    try (intros _; eexists; split; reflexivity).
  unfold well_typed, groups_ok, fields_ok.
  unfold analyze_mood. rewrite !get_group. cbn [bind].
  destruct (is_dict (group items "facial")) eqn:Hg1.
  2:{ intros _. destruct (get_raises _ "avgSmile" (JFloat 0.5) Hg1) as [m ->].
      eexists; split; reflexivity. }
  rewrite !(get_field (group items "facial")) by assumption. cbn [bind].
  destruct (is_dict (group items "typing")) eqn:Hg2.
  2:{ intros _. destruct (get_raises _ "wpm" (JInt 0) Hg2) as [m ->].
      eexists; split; reflexivity. }
  rewrite !(get_field (group items "typing")) by assumption. cbn [bind].
  destruct (is_dict (group items "voice")) eqn:Hg3.
  2:{ intros _. destruct (get_raises _ "avgVoiceLevel" (JInt 50) Hg3) as [m ->].
      eexists; split; reflexivity. }
  rewrite !(get_field (group items "voice")) by assumption. cbn [bind andb negb].
  destruct (is_number (field (group items "facial") "avgSmile" (JFloat 0.5)))
    eqn:Hf1.
  2:{ intros _. destruct (compared_raises "<" _ "int" Hf1) as [m ->].
      eexists; split; reflexivity. }
  rewrite (compared_number "<" _ "int" 0.5 Hf1). cbn [bind andb].
  destruct (is_number (field (group items "facial") "avgStressIndicator"
                             (JFloat 0.5))) eqn:Hf2.
  2:{ intros _. destruct (compared_raises "<" _ "int" Hf2) as [m ->].
      eexists; split; reflexivity. }
  rewrite (compared_number "<" _ "int" 0.5 Hf2). cbn [bind andb].
  destruct (is_number (field (group items "typing") "wpm" (JInt 0))) eqn:Hf4.
  2:{ intros _. destruct (dividend_raises _ Hf4) as [m ->].
      eexists; split; reflexivity. }
  rewrite (dividend_number _ 0 Hf4). cbn [bind].
  destruct (is_number (field (group items "typing") "accuracy" (JInt 0)))
    eqn:Hf5.
  2:{ intros _. destruct (dividend_raises _ Hf5) as [m ->].
      eexists; split; reflexivity. }
  rewrite (dividend_number _ 0 Hf5). cbn [bind].
  destruct (is_number (field (group items "voice") "avgVoiceLevel" (JInt 50)))
    eqn:Hf6.
  2:{ intros _. destruct (dividend_raises _ Hf6) as [m ->].
      eexists; split; reflexivity. }
  rewrite (dividend_number _ 50 Hf6). cbn [bind].
  destruct (is_number (field (group items "facial") "facialConfidence"
                             (JInt 0))) eqn:Hf3.
  2:{ intros _. destruct (compared_raises ">" _ "float" Hf3) as [m ->].
      eexists; split; reflexivity. }
  cbn. discriminate.
Qed.



(** X11: when the scorer raises, the exception is an [AttributeError]
    exactly when the body or one of its three entries is not an object;
    a field that is not a number gives a [TypeError] only when every entry
    is an object, because every [get] runs before the first operation on a
    field. *)
Theorem attribute_error_comes_first (data : json) (e : exn) :
  analyze_mood data = Raise e ->
  is_attribute_error e = negb (groups_ok data).
Proof.
  intros He.
  destruct (well_typed data) eqn:H.
  - rewrite (analyze_mood_well_typed data H) in He. discriminate He.
  - destruct (analyze_mood_ill_typed data H) as [e' [He' Hk]].
    rewrite He' in He. injection He as <-. exact Hk.
Qed.

(** A list under [typing] wins over a string under [avgSmile]. *)
Lemma attribute_error_comes_first_witness :
  analyze_mood ill_typed_request
  = Raise (AttributeError "'list' object has no attribute 'get'")
  /\ is_attribute_error
       (AttributeError "'list' object has no attribute 'get'")
     = negb (groups_ok ill_typed_request).
Proof.
  assert (H : analyze_mood ill_typed_request
              = Raise (AttributeError "'list' object has no attribute 'get'"))
    by reflexivity.
  split; [exact H | exact (attribute_error_comes_first _ _ H)].
Defined.

(** ** What the scorer reads of a request *)

(** X12: the scorer reads a request object through its six fields only:
    two objects whose entries are objects (or missing) and whose six
    fields, defaults filled in, are the same get the same answer, result
    or exception; other keys are ignored and a missing entry counts as
    an empty one. *)
Theorem request_read_through_six_fields (items1 items2 : list (string * json)) :
  groups_ok (JDict items1) = true ->
  groups_ok (JDict items2) = true ->
  field (group items1 "facial") "avgSmile" (JFloat 0.5)
  = field (group items2 "facial") "avgSmile" (JFloat 0.5) ->
  field (group items1 "facial") "avgStressIndicator" (JFloat 0.5)
  = field (group items2 "facial") "avgStressIndicator" (JFloat 0.5) ->
  field (group items1 "facial") "facialConfidence" (JInt 0)
  = field (group items2 "facial") "facialConfidence" (JInt 0) ->
  field (group items1 "typing") "wpm" (JInt 0)
  = field (group items2 "typing") "wpm" (JInt 0) ->
  field (group items1 "typing") "accuracy" (JInt 0)
  = field (group items2 "typing") "accuracy" (JInt 0) ->
  field (group items1 "voice") "avgVoiceLevel" (JInt 50)
  = field (group items2 "voice") "avgVoiceLevel" (JInt 50) ->
  analyze_mood (JDict items1) = analyze_mood (JDict items2).
Proof.
  unfold groups_ok. rewrite !andb_true_iff.
  intros [[Ha1 Ha2] Ha3] [[Hb1 Hb2] Hb3] E1 E2 E3 E4 E5 E6.
  unfold analyze_mood. rewrite !get_group. cbn [bind].
  rewrite !get_field by assumption. cbn [bind].
  rewrite E1, E2, E3, E4, E5, E6. reflexivity.
Qed.

Lemma request_read_through_six_fields_witness :
  analyze_mood (JDict annotated_items) = analyze_mood (JDict []).
Proof.
  apply (request_read_through_six_fields annotated_items []); reflexivity.
Defined.

(** ** The stress level after an override *)

(** X13: an override toward happy returns a stress level of at most 80,
    an override toward stressed one of at least 15, and in every case the
    level returned is between the step-6 level minus 20 and that level
    plus 15. *)
Theorem override_shift_bounds (f : features) :
  (0.6 < facial_confidence f /\ 0.7 < smile_score f ->
   (stressLevel (score f) <= 80)%Z)
  /\ (0.6 < facial_confidence f /\ ~ 0.7 < smile_score f
      /\ 0.7 < stress_score f ->
      (15 <= stressLevel (score f))%Z)
  /\ (stress_level f - 20 <= stressLevel (score f) <= stress_level f + 15)%Z.
Proof.
  pose proof (stress_level_range f) as Hr.
  unfold score; cbn [stressLevel].
  split; [| split].
  - intros [Hc Hs]. rewrite (adjusted_smile f Hc Hs). cbn [snd]. lia.
  - intros [Hc [Hs Ht]]. rewrite (adjusted_stress f Hc Hs Ht). cbn [snd]. lia.
  - unfold adjusted.
    destruct (py_gt (facial_confidence f) 0.6); [| cbn [snd]; lia].
    destruct (py_gt (smile_score f) 0.7); [cbn [snd]; lia |].
    destruct (py_gt (stress_score f) 0.7); cbn [snd]; lia.
Qed.

Lemma override_shift_bounds_witness :
  (stressLevel (score mixed) <= 80)%Z /\ (15 <= stressLevel (score tense))%Z.
Proof.
  split.
  - destruct (override_shift_bounds mixed) as [H _].
    apply H. split; reflexivity.
  - destruct (override_shift_bounds tense) as [_ [H _]].
    apply H. split; [reflexivity |]. split; [| reflexivity].
    intros Hs. vm_compute in Hs. discriminate Hs.
Defined.
